(** * cn-infra: the keyval put options and the Consul key-value plugin

    A shallow embedding of [db/keyval/put_options.go] and
    [db/keyval/consul/plugin.go].  The plugin is stateful Go code: it
    mutates its own fields, writes to a logger, registers a probe closure
    with the status-check aggregator, triggers the resync plugin and owns a
    channel.  All of this is threaded explicitly through a [World] by a
    small state-and-panic monad, so that the definitions below read like
    the Go methods they embed. *)

From Stdlib Require Import String List ZArith Bool Arith Lia.
Import ListNotations.
Open Scope string_scope.
Open Scope list_scope.

(* ================================================================= *)
(** ** Package keyval: put options *)

Module keyval.

(** [time.Duration] is an [int64] count of nanoseconds. *)
Definition Duration := Z.

(** [type WithTTLOpt struct { TTL time.Duration }] *)
Record WithTTLOpt := { TTL : Duration }.

(** Go pointers to [WithTTLOpt] objects: address [0] is [nil], address
    [S i] designates cell [i] of the heap. *)
Definition Ptr := nat.
Definition nil_ptr : Ptr := 0.
Definition Heap := list WithTTLOpt.

Definition deref (h : Heap) (p : Ptr) : option WithTTLOpt :=
  match p with
  | 0 => None
  | S i => nth_error h i
  end.

(** [&WithTTLOpt{...}]: a composite literal whose address is taken is a
    fresh allocation. *)
Definition alloc (o : WithTTLOpt) (h : Heap) : Ptr * Heap :=
  (S (length h), h ++ [o]).

(** [func WithTTL(TTL time.Duration) *WithTTLOpt { return &WithTTLOpt{TTL} }] *)
Definition WithTTL (TTL : Duration) (h : Heap) : Ptr * Heap :=
  alloc {| TTL := TTL |} h.

End keyval.

(* ================================================================= *)
(** ** Package consul: the plugin *)

Module consul.

(** Go [error] values are identified by their message; [nil] is [None]. *)
Definition error := string.

Definition healthCheckProbeKey : string := "/probe-consul-connection".

(** [type Config struct { Address string; ReconnectResync bool }] *)
Record Config := {
  Address : string;
  ReconnectResync : bool
}.

(** The part of hashicorp's [api.Config] that the plugin looks at. *)
Module api.
Record Config := {
  Address : string;
  Scheme : string;
  Datacenter : string;
  Token : string
}.
Definition set_Address (a : string) (c : Config) : Config :=
  {| Address := a; Scheme := Scheme c;
     Datacenter := Datacenter c; Token := Token c |}.
End api.

(** [statuscheck.PluginState], as reported to the health aggregator. *)
Inductive PluginState := OK | Error.

(** [*Client]: the Consul client encapsulation built by [NewClient]. *)
Record Client := { clientConfig : api.Config }.

Inductive Serializer := SerializerJSON | SerializerProto.

(** [kvproto.ProtoWrapper]: a client together with a serializer. *)
Record ProtoWrapper := {
  wrappedClient : option Client;
  serializer : Serializer
}.

Definition NewProtoWrapperWithSerializer
           (db : option Client) (s : Serializer) : ProtoWrapper :=
  {| wrappedClient := db; serializer := s |}.

(** Prefix-scoped handles handed out by the proto wrapper. *)
Record ProtoBroker := { brokerPrefix : string; brokerDb : ProtoWrapper }.
Record ProtoWatcher := { watcherPrefix : string; watcherDb : ProtoWrapper }.

(** Injected collaborators are pointers that may be [nil]. *)
Inductive StatusCheckRef := statusCheckRef.
Inductive ResyncRef := resyncRef.

(** [type Deps struct { local.PluginInfraDeps; Resync *resync.Plugin }].
    Of the infra dependencies the plugin uses [PluginName], [Log],
    [PluginConfig] and [StatusCheck]; the logger and the configuration
    loader are always injected, their effects live in [World] and
    [Env]. *)
Record Deps := {
  PluginName : string;
  StatusCheck : option StatusCheckRef;
  Resync : option ResyncRef
}.

(** Channels live in a store; a channel value is an index into it. *)
Definition ChanRef := nat.
Record Chan := {
  chClosed : bool;       (* close() has been performed on it *)
  chDelivered : nat      (* values sent on it so far *)
}.
Definition fresh_chan : Chan := {| chClosed := false; chDelivered := 0 |}.

(** [type Plugin struct { Deps; disabled; connected; client; ... }] *)
Record Plugin := {
  deps : Deps;
  disabled : bool;
  connected : bool;
  client : option Client;
  protoWrapper : option ProtoWrapper;
  reconnectResync : bool;
  lastConnErr : option error;
  initNotifChan : option ChanRef
}.

Definition set_disabled (b : bool) (p : Plugin) : Plugin :=
  {| deps := deps p; disabled := b; connected := connected p;
     client := client p; protoWrapper := protoWrapper p;
     reconnectResync := reconnectResync p; lastConnErr := lastConnErr p;
     initNotifChan := initNotifChan p |}.
Definition set_connected (b : bool) (p : Plugin) : Plugin :=
  {| deps := deps p; disabled := disabled p; connected := b;
     client := client p; protoWrapper := protoWrapper p;
     reconnectResync := reconnectResync p; lastConnErr := lastConnErr p;
     initNotifChan := initNotifChan p |}.
Definition set_client (c : option Client) (p : Plugin) : Plugin :=
  {| deps := deps p; disabled := disabled p; connected := connected p;
     client := c; protoWrapper := protoWrapper p;
     reconnectResync := reconnectResync p; lastConnErr := lastConnErr p;
     initNotifChan := initNotifChan p |}.
Definition set_protoWrapper (pw : option ProtoWrapper) (p : Plugin) : Plugin :=
  {| deps := deps p; disabled := disabled p; connected := connected p;
     client := client p; protoWrapper := pw;
     reconnectResync := reconnectResync p; lastConnErr := lastConnErr p;
     initNotifChan := initNotifChan p |}.
Definition set_reconnectResync (b : bool) (p : Plugin) : Plugin :=
  {| deps := deps p; disabled := disabled p; connected := connected p;
     client := client p; protoWrapper := protoWrapper p;
     reconnectResync := b; lastConnErr := lastConnErr p;
     initNotifChan := initNotifChan p |}.
Definition set_lastConnErr (e : option error) (p : Plugin) : Plugin :=
  {| deps := deps p; disabled := disabled p; connected := connected p;
     client := client p; protoWrapper := protoWrapper p;
     reconnectResync := reconnectResync p; lastConnErr := e;
     initNotifChan := initNotifChan p |}.
Definition set_initNotifChan (c : option ChanRef) (p : Plugin) : Plugin :=
  {| deps := deps p; disabled := disabled p; connected := connected p;
     client := client p; protoWrapper := protoWrapper p;
     reconnectResync := reconnectResync p; lastConnErr := lastConnErr p;
     initNotifChan := c |}.

Inductive Level := InfoLevel | WarnLevel | ErrorLevel.
Definition LogEntry := (Level * string)%type.

(** Everything the plugin's methods can read or change: the plugin
    object itself (methods have a pointer receiver, so there is one
    shared object), what was written to [plugin.Log], how often the
    resync plugin was triggered, which probes the status-check
    aggregator holds, how often [NewClient] was called, and the
    channel store. *)
Record World := {
  plugin : Plugin;
  Log : list LogEntry;
  resyncCalls : nat;
  probes : list string;
  newClientCalls : nat;
  chans : list Chan
}.

Definition upd_plugin (f : Plugin -> Plugin) (w : World) : World :=
  {| plugin := f (plugin w); Log := Log w; resyncCalls := resyncCalls w;
     probes := probes w; newClientCalls := newClientCalls w;
     chans := chans w |}.
Definition upd_Log (f : list LogEntry -> list LogEntry) (w : World) : World :=
  {| plugin := plugin w; Log := f (Log w); resyncCalls := resyncCalls w;
     probes := probes w; newClientCalls := newClientCalls w;
     chans := chans w |}.
Definition upd_resyncCalls (f : nat -> nat) (w : World) : World :=
  {| plugin := plugin w; Log := Log w; resyncCalls := f (resyncCalls w);
     probes := probes w; newClientCalls := newClientCalls w;
     chans := chans w |}.
Definition upd_probes (f : list string -> list string) (w : World) : World :=
  {| plugin := plugin w; Log := Log w; resyncCalls := resyncCalls w;
     probes := f (probes w); newClientCalls := newClientCalls w;
     chans := chans w |}.
Definition upd_newClientCalls (f : nat -> nat) (w : World) : World :=
  {| plugin := plugin w; Log := Log w; resyncCalls := resyncCalls w;
     probes := probes w; newClientCalls := f (newClientCalls w);
     chans := chans w |}.
Definition upd_chans (f : list Chan -> list Chan) (w : World) : World :=
  {| plugin := plugin w; Log := Log w; resyncCalls := resyncCalls w;
     probes := probes w; newClientCalls := newClientCalls w;
     chans := f (chans w) |}.

(** What the surroundings answer during [Init]: the configuration loader
    ([PluginConfig.GetValue(&cfg)] fills [cfg] and returns [found] and
    [err]), hashicorp's [api.DefaultConfig()] and this package's
    [NewClient], which returns a client pointer and an error. *)
Record Env := {
  cfgFound : bool;
  cfgValue : Config;
  cfgErr : option error;
  DefaultConfig : api.Config;
  NewClient : api.Config -> option Client * option error
}.

(* --------------------------------------------------------------- *)
(** *** The state-and-panic monad *)

Inductive Outcome (A : Type) :=
| Ret (a : A)
| Panic (msg : string).
Arguments Ret {A} a.
Arguments Panic {A} msg.

Definition M (A : Type) := World -> Outcome A * World.

Definition ret {A} (a : A) : M A := fun w => (Ret a, w).
Definition panic {A} (msg : string) : M A := fun w => (Panic msg, w).
Definition bind {A B} (m : M A) (k : A -> M B) : M B :=
  fun w =>
    match m w with
    | (Ret a, w') => k a w'
    | (Panic msg, w') => (Panic msg, w')
    end.

Declare Scope go_scope.
Delimit Scope go_scope with go.
Notation "x <- m ;; k" := (bind m (fun x => k))
  (at level 61, m at next level, right associativity) : go_scope.
Notation "m ;; k" := (bind m (fun _ => k))
  (at level 61, right associativity) : go_scope.
Open Scope go_scope.

Definition this : M Plugin := fun w => (Ret (plugin w), w).
Definition assign (f : Plugin -> Plugin) : M unit :=
  fun w => (Ret tt, upd_plugin f w).
Definition logf (l : Level) (msg : string) : M unit :=
  fun w => (Ret tt, upd_Log (fun es => es ++ [(l, msg)]) w).

Definition panicked {A} (o : Outcome A) : bool :=
  match o with Ret _ => false | Panic _ => true end.

Definition is_nil {A} (o : option A) : bool :=
  match o with None => true | Some _ => false end.

Definition nil_deref : string :=
  "invalid memory address or nil pointer dereference".

(* --------------------------------------------------------------- *)
(** *** Collaborators *)

(** [make(chan func())]: a new, open, unbuffered channel. *)
Definition make_chan : M ChanRef :=
  fun w => (Ret (length (chans w)), upd_chans (fun cs => cs ++ [fresh_chan]) w).

Fixpoint close_at (i : nat) (cs : list Chan) : list Chan :=
  match cs, i with
  | [], _ => []
  | c :: cs', 0 => {| chClosed := true; chDelivered := chDelivered c |} :: cs'
  | c :: cs', S j => c :: close_at j cs'
  end.

(** Modelled from the spec: [safeclose.Close] (package [utils/safeclose]
    is not part of the sources at hand).  Shutdown releases the pending
    notification channel, is idempotent, and tolerates and reports, but
    does not escalate, the error of closing an already closed resource:
    an open channel is closed, a [nil] or already closed one is left as
    it is, the latter being reported in the log; the returned error is
    [nil] in every case. *)
Definition safeclose_Close (c : option ChanRef) : M (option error) :=
  match c with
  | None => ret None
  | Some i =>
      fun w =>
        match nth_error (chans w) i with
        | None => (Ret None, w)
        | Some ch =>
            if chClosed ch
            then (Ret None,
                  upd_Log (fun es => es ++ [(ErrorLevel, "Recovered in safeclose: close of closed channel")]) w)
            else (Ret None, upd_chans (close_at i) w)
        end
  end.

(** Modelled from the spec: [resync.Plugin.DoResync] (package
    [datasync/resync] is not part of the sources at hand).  The resync
    trigger exposes [DoResync()] with no return value observed by the
    plugin, fire and forget; each invocation is counted.  The method
    works on its receiver's fields, so on a [nil] receiver it is a nil
    pointer dereference. *)
Definition Resync_DoResync (r : option ResyncRef) : M unit :=
  match r with
  | None => panic nil_deref
  | Some _ => fun w => (Ret tt, upd_resyncCalls S w)
  end.

(** [plugin.StatusCheck.Register(name, probe)]: the aggregator keeps the
    probe under the plugin's name.  The closure captures the plugin
    pointer, so the registered probe is [probe] below, run on the
    current [World]. *)
Definition StatusCheck_Register (name : string) : M unit :=
  fun w => (Ret tt, upd_probes (fun ps => ps ++ [name]) w).

(** [NewClient(clientCfg)], counted. *)
Definition call_NewClient (env : Env) (c : api.Config)
  : M (option Client * option error) :=
  fun w => (Ret (NewClient env c), upd_newClientCalls S w).

(** [kvproto.ProtoWrapper.NewBroker] and [NewWatcher] read the fields of
    their receiver: a [nil] wrapper is a nil pointer dereference. *)
Definition ProtoWrapper_NewBroker (pw : option ProtoWrapper) (keyPrefix : string)
  : M ProtoBroker :=
  match pw with
  | None => panic nil_deref
  | Some db => ret {| brokerPrefix := keyPrefix; brokerDb := db |}
  end.
Definition ProtoWrapper_NewWatcher (pw : option ProtoWrapper) (keyPrefix : string)
  : M ProtoWatcher :=
  match pw with
  | None => panic nil_deref
  | Some db => ret {| watcherPrefix := keyPrefix; watcherDb := db |}
  end.

(* --------------------------------------------------------------- *)
(** *** The plugin's methods *)

(** [func (plugin *Plugin) Disabled() bool] *)
Definition Disabled : M bool := p <- this ;; ret (disabled p).

(** [func (plugin *Plugin) Connected() bool] *)
Definition Connected : M bool := p <- this ;; ret (connected p).

(** [Plugin.getConfig], returning a [Config] pointer and an error *)
Definition getConfig (env : Env) : M (option Config * option error) :=
  match cfgErr env with
  | Some e => ret (None, Some e)
  | None =>
      if negb (cfgFound env) then
        logf InfoLevel "Consul config not found, skip loading this plugin" ;;
        assign (set_disabled true) ;;
        ret (None, None)
      else ret (Some (cfgValue env), None)
  end.

(** [ConfigToClient], returning an [api.Config] pointer and an error,
    on the configuration its argument points to. *)
Definition ConfigToClient (env : Env) (cfg : Config) : api.Config * option error :=
  let clientCfg := DefaultConfig env in
  let clientCfg :=
    if negb (Address cfg =? "")%string
    then api.set_Address (Address cfg) clientCfg
    else clientCfg in
  (clientCfg, None).

(** The closure registered with the status check.  Its argument is the
    error returned by [plugin.client.GetValue(healthCheckProbeKey)]. *)
Definition probe (getValueErr : option error) : M (PluginState * option error) :=
  match getValueErr with
  | None =>
      p <- this ;;
      (if reconnectResync p && negb (is_nil (lastConnErr p)) then
         logf InfoLevel "Starting resync after Consul reconnect" ;;
         match Resync (deps p) with
         | Some r =>
             Resync_DoResync (Some r) ;;
             assign (set_lastConnErr None)
         | None =>
             logf WarnLevel "Expected resync after Consul reconnect could not start beacuse of missing Resync plugin"
         end
       else ret tt) ;;
      assign (set_connected true) ;;
      ret (OK, None)
  | Some err =>
      assign (set_lastConnErr (Some err)) ;;
      assign (set_connected false) ;;
      ret (Error, Some err)
  end.

(** [func (plugin *Plugin) Init() (err error)] *)
Definition Init (env : Env) : M (option error) :=
  ch <- make_chan ;;
  assign (set_initNotifChan (Some ch)) ;;
  r <- getConfig env ;;
  p <- this ;;
  if negb (is_nil (snd r)) || disabled p then ret (snd r) else
  match fst r with
  | None => panic nil_deref
  | Some cfg =>
      let cc := ConfigToClient env cfg in
      match snd cc with
      | Some e => ret (Some e)
      | None =>
          nc <- call_NewClient env (fst cc) ;;
          assign (set_client (fst nc)) ;;
          match snd nc with
          | Some e =>
              logf ErrorLevel ("Err: " ++ e)%string ;;
              ret (Some e)
          | None =>
              assign (set_reconnectResync (ReconnectResync cfg)) ;;
              p <- this ;;
              assign (set_protoWrapper
                        (Some (NewProtoWrapperWithSerializer (client p) SerializerJSON))) ;;
              assign (set_connected true) ;;
              p <- this ;;
              match StatusCheck (deps p) with
              | Some _ => StatusCheck_Register (PluginName (deps p))
              | None => logf WarnLevel "Unable to start status check for consul"
              end ;;
              ret None
          end
      end
  end.

(** [func (plugin *Plugin) DoResync()] *)
Definition DoResync : M unit :=
  p <- this ;; Resync_DoResync (Resync (deps p)).

(** [func (plugin *Plugin) GetInitNotificationChan() <-chan func()] *)
Definition GetInitNotificationChan : M (option ChanRef) :=
  p <- this ;; ret (initNotifChan p).

(** [func (plugin *Plugin) GetPluginName() core.PluginName] *)
Definition GetPluginName : M string :=
  p <- this ;; ret (PluginName (deps p)).

(** [func (plugin *Plugin) Close() error] *)
Definition Close : M (option error) :=
  p <- this ;; safeclose_Close (initNotifChan p).

(** [func (plugin *Plugin) NewBroker(keyPrefix string) keyval.ProtoBroker] *)
Definition NewBroker (keyPrefix : string) : M ProtoBroker :=
  p <- this ;; ProtoWrapper_NewBroker (protoWrapper p) keyPrefix.

(** [func (plugin *Plugin) NewWatcher(keyPrefix string) keyval.ProtoWatcher] *)
Definition NewWatcher (keyPrefix : string) : M ProtoWatcher :=
  p <- this ;; ProtoWrapper_NewWatcher (protoWrapper p) keyPrefix.

(* --------------------------------------------------------------- *)
(** *** Runs of the plugin after [Init] *)

(** What can happen to an initialised plugin: the aggregator runs the
    probe (with the backend's answer to the sentinel read), or some
    component calls one of the exported methods. *)
Inductive Op :=
| OpProbe (getValueErr : option error)
| OpDoResync
| OpClose
| OpNewBroker (keyPrefix : string)
| OpNewWatcher (keyPrefix : string)
| OpDisabled
| OpConnected
| OpGetInitNotificationChan
| OpGetPluginName.

(** The world an operation leaves behind (also when it panics: the
    writes made before the panic stay). *)
Definition exec_op (o : Op) (w : World) : World :=
  match o with
  | OpProbe e => snd (probe e w)
  | OpDoResync => snd (DoResync w)
  | OpClose => snd (Close w)
  | OpNewBroker k => snd (NewBroker k w)
  | OpNewWatcher k => snd (NewWatcher k w)
  | OpDisabled => snd (Disabled w)
  | OpConnected => snd (Connected w)
  | OpGetInitNotificationChan => snd (GetInitNotificationChan w)
  | OpGetPluginName => snd (GetPluginName w)
  end.

Definition exec (ops : list Op) (w : World) : World :=
  fold_left (fun w o => exec_op o w) ops w.

(** Notifications delivered on a channel so far. *)
Definition delivered (w : World) (c : option ChanRef) : nat :=
  match c with
  | None => 0
  | Some i => match nth_error (chans w) i with
              | Some ch => chDelivered ch
              | None => 0
              end
  end.

(** A newly constructed plugin (all fields zero but the injected
    dependencies) in a world where nothing has happened yet. *)
Definition new_plugin (d : Deps) : Plugin :=
  {| deps := d; disabled := false; connected := false; client := None;
     protoWrapper := None; reconnectResync := false; lastConnErr := None;
     initNotifChan := None |}.
Definition new_world (d : Deps) : World :=
  {| plugin := new_plugin d; Log := []; resyncCalls := 0; probes := [];
     newClientCalls := 0; chans := [] |}.

End consul.

Import keyval.
Import consul.

(* ================================================================= *)
(** ** Concrete deployments used in the examples *)

Definition defaults : api.Config :=
  {| api.Address := "127.0.0.1:8500"; api.Scheme := "http";
     api.Datacenter := ""; api.Token := "" |}.

(** A configuration file is present, asks for a resync after reconnect,
    and the backend accepts the client. *)
Definition env_up : Env :=
  {| cfgFound := true;
     cfgValue := {| Address := "10.0.0.7:8500"; ReconnectResync := true |};
     cfgErr := None;
     DefaultConfig := defaults;
     NewClient := fun c => (Some {| clientConfig := c |}, None) |}.

(** No configuration file. *)
Definition env_noconfig : Env :=
  {| cfgFound := false;
     cfgValue := {| Address := ""; ReconnectResync := false |};
     cfgErr := None;
     DefaultConfig := defaults;
     NewClient := fun c => (Some {| clientConfig := c |}, None) |}.

(** A configuration file is present but no client can be established. *)
Definition env_down : Env :=
  {| cfgFound := true;
     cfgValue := {| Address := ""; ReconnectResync := true |};
     cfgErr := None;
     DefaultConfig := defaults;
     NewClient := fun _ => (None, Some "dial tcp: connection refused") |}.

Definition deps_full : Deps :=
  {| PluginName := "consul"; StatusCheck := Some statusCheckRef;
     Resync := Some resyncRef |}.

(** The status check is injected, the resync plugin is not. *)
Definition deps_no_resync : Deps :=
  {| PluginName := "consul"; StatusCheck := Some statusCheckRef;
     Resync := None |}.

Definition timeout_err : error := "i/o timeout".

(** The scenario of the specification: the plugin initialises and is
    connected, then the probe fails three times. *)
Definition degraded (d : Deps) : World :=
  exec [OpProbe (Some timeout_err); OpProbe (Some timeout_err);
        OpProbe (Some timeout_err)]
       (snd (Init env_up (new_world d))).

(** The configuration loader itself fails. *)
Definition env_cfgerr : Env :=
  {| cfgFound := false;
     cfgValue := {| Address := ""; ReconnectResync := false |};
     cfgErr := Some "consul.conf: cannot parse";
     DefaultConfig := defaults;
     NewClient := fun c => (Some {| clientConfig := c |}, None) |}.

(** A configuration file is present and does not ask for a resync. *)
Definition env_up_noresync : Env :=
  {| cfgFound := true;
     cfgValue := {| Address := "10.0.0.7:8500"; ReconnectResync := false |};
     cfgErr := None;
     DefaultConfig := defaults;
     NewClient := fun c => (Some {| clientConfig := c |}, None) |}.

(** Neither the status check nor the resync plugin is injected. *)
Definition deps_bare : Deps :=
  {| PluginName := "consul"; StatusCheck := None; Resync := None |}.

(** Runs of the probe: the aggregator polls, the backend answers. *)
Definition probe_run (answers : list (option error)) : list Op :=
  map OpProbe answers.
Definition failed_probes (es : list error) : list Op :=
  probe_run (map Some es).
Definition ok_probes (n : nat) : list Op :=
  probe_run (repeat None n).

(** What operations on an initialised plugin leave alone. *)
Definition same_setup (w w' : World) : Prop :=
  deps (plugin w') = deps (plugin w)
  /\ client (plugin w') = client (plugin w)
  /\ protoWrapper (plugin w') = protoWrapper (plugin w)
  /\ reconnectResync (plugin w') = reconnectResync (plugin w)
  /\ probes w' = probes w
  /\ newClientCalls w' = newClientCalls w.

(* ================================================================= *)
(** ** Basic facts about the model *)

Ltac unfold_go :=
  unfold probe, DoResync, Close, NewBroker, NewWatcher, Disabled, Connected,
    GetInitNotificationChan, GetPluginName, getConfig, Resync_DoResync,
    safeclose_Close, ProtoWrapper_NewBroker, ProtoWrapper_NewWatcher,
    StatusCheck_Register, call_NewClient, make_chan, logf, assign, this,
    bind, ret, panic in *.

(** Case analysis on the innermost scrutinee the goal branches on. *)
Ltac case_split :=
  repeat match goal with
         | |- context [match ?x with _ => _ end] =>
             lazymatch x with
             | context [match _ with _ => _ end] => fail
             | _ => let E := fresh "E" in destruct x eqn:E; cbn in *
             end
         end.

Example degraded_full_state :
  connected (plugin (degraded deps_full)) = false
  /\ lastConnErr (plugin (degraded deps_full)) = Some timeout_err
  /\ reconnectResync (plugin (degraded deps_full)) = true
  /\ probes (degraded deps_full) = ["consul"]
  /\ resyncCalls (degraded deps_full) = 0.
Proof. repeat split. Qed.

Example init_up_state :
  Init env_up (new_world deps_full)
  = (Ret None,
     {| plugin :=
          {| deps := deps_full; disabled := false; connected := true;
             client := Some {| clientConfig := api.set_Address "10.0.0.7:8500" defaults |};
             protoWrapper :=
               Some {| wrappedClient :=
                         Some {| clientConfig := api.set_Address "10.0.0.7:8500" defaults |};
                       serializer := SerializerJSON |};
             reconnectResync := true; lastConnErr := None;
             initNotifChan := Some 0 |};
        Log := []; resyncCalls := 0; probes := ["consul"];
        newClientCalls := 1; chans := [fresh_chan] |}).
Proof. reflexivity. Qed.

(** No operation on an initialised plugin writes the [disabled] field. *)
Lemma exec_op_disabled (o : Op) (w : World) :
  disabled (plugin (exec_op o w)) = disabled (plugin w).
Proof.
  destruct o; unfold exec_op; unfold_go; cbn; case_split; reflexivity.
Qed.

Lemma exec_disabled (ops : list Op) :
  forall w, disabled (plugin (exec ops w)) = disabled (plugin w).
Proof.
  induction ops as [|o ops IH]; intro w; cbn; [reflexivity|].
  fold (exec ops (exec_op o w)). rewrite IH. apply exec_op_disabled.
Qed.

(** Closing a channel leaves the count of delivered values alone. *)
Lemma close_at_delivered (cs : list Chan) :
  forall i, map chDelivered (close_at i cs) = map chDelivered cs.
Proof.
  induction cs as [|c cs IH]; intros [|i]; cbn; try reflexivity.
  now rewrite IH.
Qed.

Lemma close_at_closed (cs : list Chan) :
  forall i ch, nth_error cs i = Some ch ->
    nth_error (close_at i cs) i
    = Some {| chClosed := true; chDelivered := chDelivered ch |}.
Proof.
  induction cs as [|c cs IH]; intros [|i] ch H; cbn in *; try discriminate.
  - now inversion H.
  - now apply IH.
Qed.

(** No operation on an initialised plugin sends on a channel, and none
    replaces the notification channel. *)
Lemma exec_op_delivered (o : Op) (w : World) :
  map chDelivered (chans (exec_op o w)) = map chDelivered (chans w)
  /\ initNotifChan (plugin (exec_op o w)) = initNotifChan (plugin w).
Proof.
  destruct o; unfold exec_op; unfold_go; cbn; case_split;
    (split; [first [reflexivity | apply close_at_delivered] | congruence]).
Qed.

Lemma exec_delivered (ops : list Op) :
  forall w,
    map chDelivered (chans (exec ops w)) = map chDelivered (chans w)
    /\ initNotifChan (plugin (exec ops w)) = initNotifChan (plugin w).
Proof.
  induction ops as [|o ops IH]; intro w; cbn; [split; reflexivity|].
  fold (exec ops (exec_op o w)).
  destruct (IH (exec_op o w)) as [H1 H2].
  destruct (exec_op_delivered o w) as [H3 H4].
  split; congruence.
Qed.

Lemma delivered_nth (w : World) (i : nat) :
  delivered w (Some i) = nth i (map chDelivered (chans w)) 0.
Proof.
  unfold delivered. generalize (chans w) as cs. revert i.
  induction i as [|i IH]; intros [|c cs]; cbn; try reflexivity.
  apply IH.
Qed.

(** The getters return the field and leave the world alone. *)
Lemma Disabled_ret (w : World) :
  fst (Disabled w) = Ret (disabled (plugin w)).
Proof. reflexivity. Qed.

Lemma GetInitNotificationChan_ret (w : World) :
  fst (GetInitNotificationChan w) = Ret (initNotifChan (plugin w)).
Proof. reflexivity. Qed.

Lemma ConfigToClient_no_error (env : Env) (cfg : Config) :
  snd (ConfigToClient env cfg) = None.
Proof. reflexivity. Qed.

(** [Init] always starts by making the notification channel, and does
    nothing else to the channel store. *)
Lemma Init_chan (env : Env) (w : World) :
  chans (snd (Init env w)) = chans w ++ [fresh_chan]
  /\ initNotifChan (plugin (snd (Init env w))) = Some (length (chans w)).
Proof.
  unfold Init, ConfigToClient; unfold_go; cbn.
  case_split; split; reflexivity.
Qed.

(* ================================================================= *)
(** ** The health probe *)

(** C1, as stated, fails on the code.  In the specification's scenario
    (connected, three failed probes, resync after reconnect enabled), with
    the resync plugin not injected, a successful probe satisfies the
    premises of the claim but triggers no resync and keeps the stored
    error: the probe guards [plugin.Resync != nil]. *)
Lemma probe_success_without_Resync :
  ~ (reconnectResync (plugin (degraded deps_no_resync)) = true ->
     lastConnErr (plugin (degraded deps_no_resync)) <> None ->
     fst (probe None (degraded deps_no_resync)) = Ret (OK, None)
     /\ resyncCalls (snd (probe None (degraded deps_no_resync)))
        = S (resyncCalls (degraded deps_no_resync))
     /\ lastConnErr (plugin (snd (probe None (degraded deps_no_resync)))) = None
     /\ connected (plugin (snd (probe None (degraded deps_no_resync)))) = true).
Proof.
  intro H.
  assert (Hre : reconnectResync (plugin (degraded deps_no_resync)) = true)
    by reflexivity.
  assert (Herr : lastConnErr (plugin (degraded deps_no_resync)) <> None)
    by discriminate.
  destruct (H Hre Herr) as (_ & Hcalls & _).
  vm_compute in Hcalls. discriminate Hcalls.
Qed.

(** C1 (amended): when the sentinel-key read succeeds, resync after
    reconnect is enabled, a previous probe failure is recorded and the
    resync plugin is injected, the probe triggers the resync exactly once,
    clears [lastConnErr], sets [connected] and reports [OK] with a nil
    error. *)
Theorem probe_success_resync (w : World) (r : ResyncRef)
  (Hre : reconnectResync (plugin w) = true)
  (Herr : lastConnErr (plugin w) <> None)
  (Hres : Resync (deps (plugin w)) = Some r) :
  fst (probe None w) = Ret (OK, None)
  /\ resyncCalls (snd (probe None w)) = S (resyncCalls w)
  /\ lastConnErr (plugin (snd (probe None w))) = None
  /\ connected (plugin (snd (probe None w))) = true
  /\ fst (Connected (snd (probe None w))) = Ret true.
Proof.
  unfold probe, Connected; unfold_go.
  rewrite Hre, Hres.
  destruct (lastConnErr (plugin w)) as [e|]; [|congruence].
  cbn. repeat split.
Qed.

Lemma probe_success_resync_witness :
  (reconnectResync (plugin (degraded deps_full)) = true
   /\ lastConnErr (plugin (degraded deps_full)) <> None
   /\ Resync (deps (plugin (degraded deps_full))) = Some resyncRef)
  /\ (fst (probe None (degraded deps_full)) = Ret (OK, None)
      /\ resyncCalls (snd (probe None (degraded deps_full)))
         = S (resyncCalls (degraded deps_full))
      /\ lastConnErr (plugin (snd (probe None (degraded deps_full)))) = None
      /\ connected (plugin (snd (probe None (degraded deps_full)))) = true
      /\ fst (Connected (snd (probe None (degraded deps_full)))) = Ret true).
Proof.
  split.
  - split; [reflexivity | split; [cbv; discriminate | reflexivity]].
  - apply (probe_success_resync (degraded deps_full) resyncRef);
      [reflexivity | cbv; discriminate | reflexivity].
Defined.

(** C2: when the sentinel-key read fails with an error [e], the probe
    stores [e] in [lastConnErr], sets [connected] to false and returns
    [(Error, e)] to the health aggregator. *)
Theorem probe_failure (e : error) (w : World) :
  fst (probe (Some e) w) = Ret (Error, Some e)
  /\ lastConnErr (plugin (snd (probe (Some e) w))) = Some e
  /\ connected (plugin (snd (probe (Some e) w))) = false
  /\ fst (Connected (snd (probe (Some e) w))) = Ret false.
Proof. repeat split. Qed.

(** The other outcomes of a successful probe: nothing to resync. *)
Lemma probe_success_plain (w : World) :
  reconnectResync (plugin w) && negb (is_nil (lastConnErr (plugin w))) = false ->
  probe None w = (Ret (OK, None), upd_plugin (set_connected true) w).
Proof.
  intro H. unfold probe; unfold_go. now rewrite H.
Qed.

(* ================================================================= *)
(** ** Initialisation *)

(** C3: when the configuration loader reports no error and no
    configuration, [Init] returns a nil error and leaves the plugin
    disabled ([Disabled()] is true); [NewClient] is not called, the
    [client] and [connected] fields keep their values and no probe is
    registered. *)
Theorem Init_without_config (env : Env) (w : World)
  (Hok : cfgErr env = None)
  (Hnf : cfgFound env = false) :
  fst (Init env w) = Ret None
  /\ fst (Disabled (snd (Init env w))) = Ret true
  /\ newClientCalls (snd (Init env w)) = newClientCalls w
  /\ client (plugin (snd (Init env w))) = client (plugin w)
  /\ connected (plugin (snd (Init env w))) = connected (plugin w)
  /\ probes (snd (Init env w)) = probes w.
Proof.
  unfold Init, Disabled; unfold_go.
  rewrite Hok, Hnf. cbn. repeat split.
Qed.

Lemma Init_without_config_witness :
  (cfgErr env_noconfig = None /\ cfgFound env_noconfig = false)
  /\ (fst (Init env_noconfig (new_world deps_full)) = Ret None
      /\ fst (Disabled (snd (Init env_noconfig (new_world deps_full)))) = Ret true
      /\ newClientCalls (snd (Init env_noconfig (new_world deps_full))) = 0
      /\ client (plugin (snd (Init env_noconfig (new_world deps_full)))) = None
      /\ connected (plugin (snd (Init env_noconfig (new_world deps_full)))) = false
      /\ probes (snd (Init env_noconfig (new_world deps_full))) = []).
Proof.
  split; [split; reflexivity|].
  apply (Init_without_config env_noconfig (new_world deps_full));
    reflexivity.
Defined.

(** C4: when a configuration is present, the plugin is not disabled and
    [NewClient] fails with an error [e], [Init] returns [e]; the plugin is
    not marked connected, gets no proto wrapper and registers no probe. *)
Theorem Init_client_failure (env : Env) (w : World) (e : error)
  (Hok : cfgErr env = None)
  (Hfound : cfgFound env = true)
  (Hen : disabled (plugin w) = false)
  (Hfail : snd (NewClient env (fst (ConfigToClient env (cfgValue env)))) = Some e) :
  fst (Init env w) = Ret (Some e)
  /\ newClientCalls (snd (Init env w)) = S (newClientCalls w)
  /\ connected (plugin (snd (Init env w))) = connected (plugin w)
  /\ protoWrapper (plugin (snd (Init env w))) = protoWrapper (plugin w)
  /\ probes (snd (Init env w)) = probes w.
Proof.
  unfold Init; unfold_go.
  rewrite Hok, Hfound. cbn -[ConfigToClient].
  rewrite Hen. cbn -[ConfigToClient].
  rewrite ConfigToClient_no_error, Hfail. cbn. repeat split.
Qed.

Lemma Init_client_failure_witness :
  (cfgErr env_down = None /\ cfgFound env_down = true
   /\ disabled (plugin (new_world deps_full)) = false
   /\ snd (NewClient env_down (fst (ConfigToClient env_down (cfgValue env_down))))
      = Some "dial tcp: connection refused")
  /\ (fst (Init env_down (new_world deps_full))
      = Ret (Some "dial tcp: connection refused")
      /\ newClientCalls (snd (Init env_down (new_world deps_full))) = 1
      /\ connected (plugin (snd (Init env_down (new_world deps_full)))) = false
      /\ protoWrapper (plugin (snd (Init env_down (new_world deps_full)))) = None
      /\ probes (snd (Init env_down (new_world deps_full))) = []).
Proof.
  split; [split; [|split; [|split]]; reflexivity|].
  apply (Init_client_failure env_down (new_world deps_full)
           "dial tcp: connection refused"); reflexivity.
Defined.

(* ================================================================= *)
(** ** The post-init notification channel *)

(** C5, as stated, fails on the code.  The plugin initialises, loses the
    backend (a failed probe) and gets it back (a successful probe): a
    connection became available after initialisation, and the number of
    notifications delivered on the channel of [GetInitNotificationChan] is
    zero, not one. *)
Lemma no_notification_on_reconnect :
  ~ (fst (GetInitNotificationChan
            (exec [OpProbe (Some timeout_err); OpProbe None]
                  (snd (Init env_up (new_world deps_full))))) = Ret (Some 0) ->
     connected (plugin (exec [OpProbe (Some timeout_err)]
                             (snd (Init env_up (new_world deps_full))))) = false ->
     connected (plugin (exec [OpProbe (Some timeout_err); OpProbe None]
                             (snd (Init env_up (new_world deps_full))))) = true ->
     delivered (exec [OpProbe (Some timeout_err); OpProbe None]
                     (snd (Init env_up (new_world deps_full)))) (Some 0) = 1).
Proof.
  intro H.
  specialize (H eq_refl eq_refl eq_refl).
  vm_compute in H. discriminate H.
Qed.

(** C5 (amended): [GetInitNotificationChan] returns the channel made
    during [Init], a new and open channel; whatever happens to the plugin
    afterwards (probes that lose or regain the connection, resyncs,
    [Close], brokers and watchers), it keeps returning that channel and no
    notification is ever delivered on it, so it is never a repeating
    stream. *)
Theorem init_notification_chan (env : Env) (w : World) (ops : list Op) :
  fst (GetInitNotificationChan (snd (Init env w))) = Ret (Some (length (chans w)))
  /\ nth_error (chans w) (length (chans w)) = None
  /\ nth_error (chans (snd (Init env w))) (length (chans w)) = Some fresh_chan
  /\ fst (GetInitNotificationChan (exec ops (snd (Init env w))))
     = Ret (Some (length (chans w)))
  /\ delivered (exec ops (snd (Init env w))) (Some (length (chans w))) = 0.
Proof.
  destruct (Init_chan env w) as [Hch Hnc].
  destruct (exec_delivered ops (snd (Init env w))) as [Hd Hn].
  rewrite !GetInitNotificationChan_ret.
  repeat split.
  - now rewrite Hnc.
  - apply nth_error_None. lia.
  - rewrite Hch, nth_error_app2, Nat.sub_diag by lia. reflexivity.
  - now rewrite Hn, Hnc.
  - rewrite delivered_nth, Hd, Hch, map_app, app_nth2;
      rewrite length_map; [|lia].
    now rewrite Nat.sub_diag.
Qed.

(* ================================================================= *)
(** ** Shutdown *)

(** C6: two calls of [Close] in succession both return a nil error and
    neither panics; the second call changes neither the channel store (the
    channel is closed once) nor the plugin. *)
Theorem Close_twice (w : World) :
  fst (Close w) = Ret None
  /\ fst (Close (snd (Close w))) = Ret None
  /\ chans (snd (Close (snd (Close w)))) = chans (snd (Close w))
  /\ plugin (snd (Close (snd (Close w)))) = plugin (snd (Close w))
  /\ plugin (snd (Close w)) = plugin w.
Proof.
  unfold Close; unfold_go; cbn.
  destruct (initNotifChan (plugin w)) as [c|] eqn:Ec; cbn;
    [|rewrite Ec; repeat split].
  destruct (nth_error (chans w) c) as [ch|] eqn:En; cbn.
  - destruct (chClosed ch) eqn:Ecl; cbn; rewrite Ec; cbn.
    + rewrite En, Ecl. cbn. repeat split.
    + rewrite (close_at_closed _ _ _ En). cbn. repeat split.
  - rewrite Ec. cbn. rewrite En. repeat split.
Qed.

(** After the first [Close] the notification channel of an initialised
    plugin is closed. *)
Example Close_closes_chan :
  nth_error (chans (snd (Close (snd (Init env_up (new_world deps_full)))))) 0
  = Some {| chClosed := true; chDelivered := 0 |}.
Proof. reflexivity. Qed.

(* ================================================================= *)
(** ** The disabled flag *)

(** C7: once [Init] has completed, no later operation (health probe,
    [Close], [DoResync], creation of brokers and watchers, the getters)
    changes the disabled flag: [Disabled()] returns the same value after
    any run of operations as right after [Init]. *)
Theorem disabled_fixed_after_Init (env : Env) (w : World) (ops : list Op) :
  fst (Disabled (exec ops (snd (Init env w)))) = fst (Disabled (snd (Init env w)))
  /\ disabled (plugin (exec ops (snd (Init env w))))
     = disabled (plugin (snd (Init env w))).
Proof.
  rewrite !Disabled_ret, exec_disabled. split; reflexivity.
Qed.

(* ================================================================= *)
(** ** Client configuration *)

(** C8: for every configuration, [ConfigToClient] returns a nil error and
    a client configuration whose address is the backend default when
    [cfg.Address] is empty and [cfg.Address] otherwise; the other fields
    are those of the backend default. *)
Theorem ConfigToClient_address (env : Env) (cfg : Config) :
  snd (ConfigToClient env cfg) = None
  /\ api.Address (fst (ConfigToClient env cfg))
     = (if (Address cfg =? "")%string
        then api.Address (DefaultConfig env)
        else Address cfg)
  /\ api.Scheme (fst (ConfigToClient env cfg)) = api.Scheme (DefaultConfig env)
  /\ api.Datacenter (fst (ConfigToClient env cfg)) = api.Datacenter (DefaultConfig env)
  /\ api.Token (fst (ConfigToClient env cfg)) = api.Token (DefaultConfig env).
Proof.
  unfold ConfigToClient.
  destruct (Address cfg =? "")%string; cbn; repeat split.
Qed.

Example ConfigToClient_empty_address :
  api.Address (fst (ConfigToClient env_down (cfgValue env_down))) = "127.0.0.1:8500".
Proof. reflexivity. Qed.

Example ConfigToClient_given_address :
  api.Address (fst (ConfigToClient env_up (cfgValue env_up))) = "10.0.0.7:8500".
Proof. reflexivity. Qed.

(* ================================================================= *)
(** ** Put options *)

(** Objects that exist before [WithTTL] runs are still there, unchanged. *)
Lemma WithTTL_frame (d : Duration) (h : Heap) (q : Ptr) (o : WithTTLOpt) :
  deref h q = Some o -> deref (snd (WithTTL d h)) q = Some o.
Proof.
  destruct q as [|i]; cbn; [discriminate|].
  intro H. rewrite nth_error_app1; [assumption|].
  apply nth_error_Some. congruence.
Qed.

(** C9: [WithTTL d] returns a non-nil pointer to an option whose [TTL]
    field is exactly [d]; the only effect is the allocation of that
    object: the heap grows by one cell and all earlier cells keep their
    contents. *)
Theorem WithTTL_pure (d : Duration) (h : Heap) :
  fst (WithTTL d h) <> nil_ptr
  /\ deref (snd (WithTTL d h)) (fst (WithTTL d h)) = Some {| TTL := d |}
  /\ option_map TTL (deref (snd (WithTTL d h)) (fst (WithTTL d h))) = Some d
  /\ length (snd (WithTTL d h)) = S (length h)
  /\ firstn (length h) (snd (WithTTL d h)) = h.
Proof.
  unfold WithTTL, alloc, nil_ptr; cbn.
  assert (Hn : nth_error (h ++ [{| TTL := d |}]) (length h) = Some {| TTL := d |})
    by (rewrite nth_error_app2, Nat.sub_diag by lia; reflexivity).
  rewrite Hn. cbn.
  split; [discriminate|]. split; [reflexivity|]. split; [reflexivity|].
  split.
  - rewrite length_app. cbn. lia.
  - rewrite firstn_app, Nat.sub_diag, firstn_all. cbn. apply app_nil_r.
Qed.

Example WithTTL_ten_seconds :
  WithTTL 10000000000%Z [] = (1, [{| TTL := 10000000000%Z |}]).
Proof. reflexivity. Qed.

(* ================================================================= *)
(** ** Nil resync plugin *)

(** C10: [Plugin.DoResync] calls the resync plugin without a check, so it
    panics exactly when [Resync] is nil; the probe never panics, and with
    a nil [Resync] in the situation where it would resync it only logs a
    warning: no resync is triggered and the stored error stays. *)
Theorem DoResync_unguarded_probe_guarded (w : World) :
  panicked (fst (DoResync w)) = is_nil (Resync (deps (plugin w)))
  /\ (forall e, panicked (fst (probe e w)) = false)
  /\ (Resync (deps (plugin w)) = None ->
      reconnectResync (plugin w) = true ->
      lastConnErr (plugin w) <> None ->
      fst (probe None w) = Ret (OK, None)
      /\ resyncCalls (snd (probe None w)) = resyncCalls w
      /\ lastConnErr (plugin (snd (probe None w))) = lastConnErr (plugin w)
      /\ Log (snd (probe None w))
         = Log w ++ [(InfoLevel, "Starting resync after Consul reconnect");
                     (WarnLevel, "Expected resync after Consul reconnect could not start beacuse of missing Resync plugin")]).
Proof.
  split; [|split].
  - unfold DoResync; unfold_go.
    destruct (Resync (deps (plugin w))); reflexivity.
  - intros [e|]; unfold probe; unfold_go; [reflexivity|].
    destruct (reconnectResync (plugin w)), (lastConnErr (plugin w)),
      (Resync (deps (plugin w))); reflexivity.
  - intros Hnil Hre Herr. unfold probe; unfold_go.
    rewrite Hnil, Hre.
    destruct (lastConnErr (plugin w)) as [e|] eqn:El; [|congruence].
    cbn. rewrite <- app_assoc. repeat split. exact El.
Qed.

Lemma DoResync_unguarded_probe_guarded_witness :
  (Resync (deps (plugin (degraded deps_no_resync))) = None
   /\ reconnectResync (plugin (degraded deps_no_resync)) = true
   /\ lastConnErr (plugin (degraded deps_no_resync)) <> None)
  /\ panicked (fst (DoResync (degraded deps_no_resync))) = true
  /\ fst (probe None (degraded deps_no_resync)) = Ret (OK, None)
  /\ resyncCalls (snd (probe None (degraded deps_no_resync))) = 0
  /\ lastConnErr (plugin (snd (probe None (degraded deps_no_resync))))
     = Some timeout_err.
Proof.
  split; [split; [reflexivity | split; [reflexivity | cbv; discriminate]]|].
  destruct (DoResync_unguarded_probe_guarded (degraded deps_no_resync))
    as (Hpanic & _ & Hprobe).
  destruct Hprobe as (Hret & Hcalls & Herr & _);
    [reflexivity | reflexivity | cbv; discriminate |].
  split; [exact Hpanic|].
  split; [exact Hret|].
  split; [exact Hcalls | exact Herr].
Defined.

(* ================================================================= *)
(** ** Further properties of initialisation *)


(** X2: on a newly constructed plugin, [Connected()] after [Init] is true
    exactly when [Init] returned nil and the plugin is not disabled; in
    particular a plugin is never both disabled and connected. *)
Theorem Init_new_plugin_flags (env : Env) (d : Deps) :
  connected (plugin (snd (Init env (new_world d))))
  = match fst (Init env (new_world d)) with
    | Ret None => negb (disabled (plugin (snd (Init env (new_world d)))))
    | _ => false
    end.
Proof.
  unfold Init, ConfigToClient, new_world, new_plugin; unfold_go; cbn.
  case_split; reflexivity.
Qed.

(** X3: when the configuration loader returns an error, [Init] returns
    that error without logging; the only field of the plugin that changes
    is the notification channel, [NewClient] is not called and nothing is
    registered. *)
Theorem Init_config_error (env : Env) (w : World) (e : error)
  (Herr : cfgErr env = Some e) :
  fst (Init env w) = Ret (Some e)
  /\ plugin (snd (Init env w))
     = set_initNotifChan (Some (length (chans w))) (plugin w)
  /\ Log (snd (Init env w)) = Log w
  /\ newClientCalls (snd (Init env w)) = newClientCalls w
  /\ probes (snd (Init env w)) = probes w.
Proof.
  unfold Init; unfold_go. rewrite Herr. cbn. repeat split.
Qed.

Lemma Init_config_error_witness :
  cfgErr env_cfgerr = Some "consul.conf: cannot parse"
  /\ fst (Init env_cfgerr (new_world deps_full))
     = Ret (Some "consul.conf: cannot parse")
  /\ plugin (snd (Init env_cfgerr (new_world deps_full)))
     = set_initNotifChan (Some 0) (new_plugin deps_full)
  /\ Log (snd (Init env_cfgerr (new_world deps_full))) = []
  /\ newClientCalls (snd (Init env_cfgerr (new_world deps_full))) = 0
  /\ probes (snd (Init env_cfgerr (new_world deps_full))) = [].
Proof.
  split; [reflexivity|].
  apply (Init_config_error env_cfgerr (new_world deps_full)); reflexivity.
Defined.

(** X4: a disabled plugin stays disabled: a later [Init] of a plugin that
    is already disabled returns the configuration loader's error (nil if
    there is none), even when a configuration is now present; it calls
    [NewClient] never, does not connect and registers nothing. *)
Theorem Init_stays_disabled (env : Env) (w : World)
  (Hdis : disabled (plugin w) = true) :
  fst (Init env w) = Ret (cfgErr env)
  /\ disabled (plugin (snd (Init env w))) = true
  /\ connected (plugin (snd (Init env w))) = connected (plugin w)
  /\ client (plugin (snd (Init env w))) = client (plugin w)
  /\ newClientCalls (snd (Init env w)) = newClientCalls w
  /\ probes (snd (Init env w)) = probes w.
Proof.
  unfold Init; unfold_go.
  destruct (cfgErr env) as [e|]; cbn; [repeat split; assumption|].
  destruct (cfgFound env); cbn; [|repeat split].
  rewrite Hdis. cbn. repeat split; assumption.
Qed.

Lemma Init_stays_disabled_witness :
  disabled (plugin (snd (Init env_noconfig (new_world deps_full)))) = true
  /\ fst (Init env_up (snd (Init env_noconfig (new_world deps_full)))) = Ret None
  /\ disabled (plugin (snd (Init env_up (snd (Init env_noconfig (new_world deps_full))))))
     = true
  /\ connected (plugin (snd (Init env_up (snd (Init env_noconfig (new_world deps_full))))))
     = false
  /\ client (plugin (snd (Init env_up (snd (Init env_noconfig (new_world deps_full))))))
     = None
  /\ newClientCalls (snd (Init env_up (snd (Init env_noconfig (new_world deps_full)))))
     = 0
  /\ probes (snd (Init env_up (snd (Init env_noconfig (new_world deps_full))))) = [].
Proof.
  split; [reflexivity|].
  apply (Init_stays_disabled env_up (snd (Init env_noconfig (new_world deps_full))));
    reflexivity.
Defined.

(** X5: without a configuration, [Init] writes exactly one Info line to
    the log and changes the plugin in two fields only: the notification
    channel and the disabled flag. *)
Theorem Init_without_config_effects (env : Env) (w : World)
  (Hok : cfgErr env = None)
  (Hnf : cfgFound env = false) :
  plugin (snd (Init env w))
  = set_disabled true (set_initNotifChan (Some (length (chans w))) (plugin w))
  /\ Log (snd (Init env w))
     = Log w ++ [(InfoLevel, "Consul config not found, skip loading this plugin")]
  /\ resyncCalls (snd (Init env w)) = resyncCalls w.
Proof.
  unfold Init; unfold_go. rewrite Hok, Hnf. cbn. repeat split.
Qed.

Lemma Init_without_config_effects_witness :
  (cfgErr env_noconfig = None /\ cfgFound env_noconfig = false)
  /\ plugin (snd (Init env_noconfig (new_world deps_bare)))
     = set_disabled true (set_initNotifChan (Some 0) (new_plugin deps_bare))
  /\ Log (snd (Init env_noconfig (new_world deps_bare)))
     = [(InfoLevel, "Consul config not found, skip loading this plugin")]
  /\ resyncCalls (snd (Init env_noconfig (new_world deps_bare))) = 0.
Proof.
  split; [split; reflexivity|].
  apply (Init_without_config_effects env_noconfig (new_world deps_bare));
    reflexivity.
Defined.

(** X6: when [NewClient] fails with [e], [Init] logs exactly one Error
    line carrying [e]; the pointer [NewClient] returned has already been
    stored in [plugin.client], while [reconnectResync] and the disabled
    flag are left alone. *)
Theorem Init_client_failure_effects (env : Env) (w : World) (e : error)
  (Hok : cfgErr env = None)
  (Hfound : cfgFound env = true)
  (Hen : disabled (plugin w) = false)
  (Hfail : snd (NewClient env (fst (ConfigToClient env (cfgValue env)))) = Some e) :
  Log (snd (Init env w)) = Log w ++ [(ErrorLevel, ("Err: " ++ e)%string)]
  /\ client (plugin (snd (Init env w)))
     = fst (NewClient env (fst (ConfigToClient env (cfgValue env))))
  /\ reconnectResync (plugin (snd (Init env w))) = reconnectResync (plugin w)
  /\ disabled (plugin (snd (Init env w))) = false.
Proof.
  unfold Init; unfold_go.
  rewrite Hok, Hfound. cbn -[ConfigToClient].
  rewrite Hen. cbn -[ConfigToClient].
  rewrite ConfigToClient_no_error, Hfail. cbn -[ConfigToClient].
  repeat split. assumption.
Qed.

Lemma Init_client_failure_effects_witness :
  (cfgErr env_down = None /\ cfgFound env_down = true
   /\ disabled (plugin (new_world deps_full)) = false
   /\ snd (NewClient env_down (fst (ConfigToClient env_down (cfgValue env_down))))
      = Some "dial tcp: connection refused")
  /\ Log (snd (Init env_down (new_world deps_full)))
     = [(ErrorLevel, "Err: dial tcp: connection refused")]
  /\ client (plugin (snd (Init env_down (new_world deps_full)))) = None
  /\ reconnectResync (plugin (snd (Init env_down (new_world deps_full)))) = false
  /\ disabled (plugin (snd (Init env_down (new_world deps_full)))) = false.
Proof.
  split; [split; [|split; [|split]]; reflexivity|].
  apply (Init_client_failure_effects env_down (new_world deps_full)
           "dial tcp: connection refused"); reflexivity.
Defined.

Section InitSucceeds.

(** A configuration is found, the plugin is not disabled, and
    [NewClient] hands back the client pointer [c] with a nil error. *)
Variables (env : Env) (w : World) (c : option Client).
Hypothesis Hok : cfgErr env = None.
Hypothesis Hfound : cfgFound env = true.
Hypothesis Hen : disabled (plugin w) = false.
Hypothesis Hnew :
  NewClient env (fst (ConfigToClient env (cfgValue env))) = (c, None).

Lemma Init_succeeds_steps :
  Init env w
  = (Ret None,
     let w1 :=
       upd_plugin
         (fun p =>
            set_connected true
              (set_protoWrapper
                 (Some (NewProtoWrapperWithSerializer c SerializerJSON))
                 (set_reconnectResync (ReconnectResync (cfgValue env))
                    (set_client c
                       (set_initNotifChan (Some (length (chans w))) p)))))
         (upd_newClientCalls S (upd_chans (fun cs => cs ++ [fresh_chan]) w)) in
     match StatusCheck (deps (plugin w)) with
     | Some _ => upd_probes (fun ps => ps ++ [PluginName (deps (plugin w))]) w1
     | None =>
         upd_Log (fun es => es ++ [(WarnLevel, "Unable to start status check for consul")]) w1
     end).
Proof.
  unfold Init; unfold_go.
  rewrite Hok, Hfound. cbn -[ConfigToClient].
  rewrite Hen. cbn -[ConfigToClient].
  rewrite ConfigToClient_no_error, Hnew. cbn -[ConfigToClient].
  destruct (StatusCheck (deps (plugin w))); reflexivity.
Qed.

(** X7: a successful [Init] returns nil and leaves the plugin connected
    and not disabled, holding the client [NewClient] returned, a proto
    wrapper around that client with the JSON serializer, and the
    configuration's resync flag; [NewClient] was called once and the
    stored probe error is not reset. *)
Theorem Init_success :
  fst (Init env w) = Ret None
  /\ connected (plugin (snd (Init env w))) = true
  /\ disabled (plugin (snd (Init env w))) = false
  /\ client (plugin (snd (Init env w))) = c
  /\ protoWrapper (plugin (snd (Init env w)))
     = Some {| wrappedClient := c; serializer := SerializerJSON |}
  /\ reconnectResync (plugin (snd (Init env w))) = ReconnectResync (cfgValue env)
  /\ lastConnErr (plugin (snd (Init env w))) = lastConnErr (plugin w)
  /\ newClientCalls (snd (Init env w)) = S (newClientCalls w).
Proof.
  rewrite Init_succeeds_steps.
  destruct (StatusCheck (deps (plugin w))); cbn; repeat split; assumption.
Qed.

(** X8: a successful [Init] registers its probe with the status check,
    once and under the plugin's name, exactly when the status check is
    injected; otherwise it registers nothing and logs one warning.  In
    both cases it still returns nil and is connected. *)
Theorem Init_registration :
  probes (snd (Init env w))
  = match StatusCheck (deps (plugin w)) with
    | Some _ => probes w ++ [PluginName (deps (plugin w))]
    | None => probes w
    end
  /\ Log (snd (Init env w))
     = match StatusCheck (deps (plugin w)) with
       | Some _ => Log w
       | None => Log w ++ [(WarnLevel, "Unable to start status check for consul")]
       end.
Proof.
  rewrite Init_succeeds_steps.
  destruct (StatusCheck (deps (plugin w))); cbn; split; reflexivity.
Qed.

End InitSucceeds.

Lemma Init_success_witness :
  (cfgErr env_up = None /\ cfgFound env_up = true
   /\ disabled (plugin (new_world deps_bare)) = false
   /\ NewClient env_up (fst (ConfigToClient env_up (cfgValue env_up)))
      = (Some {| clientConfig := api.set_Address "10.0.0.7:8500" defaults |}, None))
  /\ fst (Init env_up (new_world deps_bare)) = Ret None
  /\ connected (plugin (snd (Init env_up (new_world deps_bare)))) = true
  /\ disabled (plugin (snd (Init env_up (new_world deps_bare)))) = false
  /\ client (plugin (snd (Init env_up (new_world deps_bare))))
     = Some {| clientConfig := api.set_Address "10.0.0.7:8500" defaults |}
  /\ protoWrapper (plugin (snd (Init env_up (new_world deps_bare))))
     = Some {| wrappedClient :=
                 Some {| clientConfig := api.set_Address "10.0.0.7:8500" defaults |};
               serializer := SerializerJSON |}
  /\ reconnectResync (plugin (snd (Init env_up (new_world deps_bare)))) = true
  /\ lastConnErr (plugin (snd (Init env_up (new_world deps_bare)))) = None
  /\ newClientCalls (snd (Init env_up (new_world deps_bare))) = 1.
Proof.
  split; [split; [|split; [|split]]; reflexivity|].
  apply (Init_success env_up (new_world deps_bare)); reflexivity.
Defined.

Lemma Init_registration_witness :
  (cfgErr env_up = None /\ cfgFound env_up = true
   /\ disabled (plugin (new_world deps_bare)) = false
   /\ NewClient env_up (fst (ConfigToClient env_up (cfgValue env_up)))
      = (Some {| clientConfig := api.set_Address "10.0.0.7:8500" defaults |}, None))
  /\ probes (snd (Init env_up (new_world deps_bare))) = []
  /\ Log (snd (Init env_up (new_world deps_bare)))
     = [(WarnLevel, "Unable to start status check for consul")].
Proof.
  split; [split; [|split; [|split]]; reflexivity|].
  apply (Init_registration env_up (new_world deps_bare)
           (Some {| clientConfig := api.set_Address "10.0.0.7:8500" defaults |}));
    reflexivity.
Defined.

(* ================================================================= *)
(** ** Further properties of the probe and of runs *)

Lemma exec_app (ops1 ops2 : list Op) (w : World) :
  exec (ops1 ++ ops2) w = exec ops2 (exec ops1 w).
Proof. unfold exec. apply fold_left_app. Qed.

(** A property kept by every operation is kept by every run. *)
Lemma exec_invariant (P : World -> Prop) :
  (forall o w, P w -> P (exec_op o w)) ->
  forall ops w, P w -> P (exec ops w).
Proof.
  intros Hstep ops. induction ops as [|o ops IH]; intros w Hw; cbn.
  - exact Hw.
  - apply IH, Hstep, Hw.
Qed.

Lemma exec_op_same_setup (o : Op) (w : World) : same_setup w (exec_op o w).
Proof.
  unfold same_setup.
  destruct o; unfold exec_op; unfold_go; cbn; case_split;
    repeat split; congruence.
Qed.

Lemma Init_deps (env : Env) (w : World) :
  deps (plugin (snd (Init env w))) = deps (plugin w).
Proof.
  unfold Init, ConfigToClient; unfold_go; cbn. case_split; reflexivity.
Qed.

Lemma Init_nil_enabled_connected (env : Env) (w : World) :
  fst (Init env w) = Ret None ->
  disabled (plugin (snd (Init env w))) = false ->
  connected (plugin (snd (Init env w))) = true.
Proof.
  unfold Init, ConfigToClient; unfold_go; cbn.
  case_split; intros; try reflexivity; congruence.
Qed.

(** The first successful probe after a failure, with resync enabled and
    the resync plugin injected. *)
Lemma probe_reconnect_step (w : World) (r : ResyncRef) (e : error) :
  reconnectResync (plugin w) = true ->
  Resync (deps (plugin w)) = Some r ->
  lastConnErr (plugin w) = Some e ->
  probe None w
  = (Ret (OK, None),
     upd_plugin (fun p => set_connected true (set_lastConnErr None p))
       (upd_resyncCalls S
          (upd_Log (fun es => es ++ [(InfoLevel, "Starting resync after Consul reconnect")]) w))).
Proof.
  intros Hre Hres Herr. unfold probe; unfold_go.
  rewrite Hre, Hres, Herr. reflexivity.
Qed.

(** Failed probes keep the setup and the resync count, and leave an error
    stored. *)
Lemma failed_probes_state (es : list error) :
  forall (e : error) (w : World),
    reconnectResync (plugin (exec (failed_probes (e :: es)) w))
    = reconnectResync (plugin w)
    /\ deps (plugin (exec (failed_probes (e :: es)) w)) = deps (plugin w)
    /\ resyncCalls (exec (failed_probes (e :: es)) w) = resyncCalls w
    /\ lastConnErr (plugin (exec (failed_probes (e :: es)) w)) <> None
    /\ connected (plugin (exec (failed_probes (e :: es)) w)) = false.
Proof.
  induction es as [|e' es IH]; intros e w.
  - cbn. repeat split. discriminate.
  - change (exec (failed_probes (e :: e' :: es)) w)
      with (exec (failed_probes (e' :: es)) (exec_op (OpProbe (Some e)) w)).
    destruct (IH e' (exec_op (OpProbe (Some e)) w)) as (H1 & H2 & H3 & H4 & H5).
    rewrite H1, H2, H3, H5. repeat split. exact H4.
Qed.

(** Successful probes on a plugin with no stored error only set
    [connected]. *)
Lemma ok_probes_quiet (n : nat) :
  forall w, lastConnErr (plugin w) = None ->
    resyncCalls (exec (ok_probes n) w) = resyncCalls w
    /\ lastConnErr (plugin (exec (ok_probes n) w)) = None
    /\ Log (exec (ok_probes n) w) = Log w
    /\ (n <> 0 -> connected (plugin (exec (ok_probes n) w)) = true).
Proof.
  induction n as [|n IH]; intros w Hnone.
  - cbn. repeat split; [assumption | congruence].
  - change (exec (ok_probes (S n)) w)
      with (exec (ok_probes n) (exec_op (OpProbe None) w)).
    assert (Hstep : exec_op (OpProbe None) w = upd_plugin (set_connected true) w).
    { unfold exec_op. rewrite probe_success_plain; [reflexivity|].
      rewrite Hnone. apply andb_false_r. }
    rewrite Hstep.
    destruct (IH (upd_plugin (set_connected true) w) Hnone) as (H1 & H2 & H3 & H4).
    repeat split; try assumption.
    intros _. destruct n as [|n]; [reflexivity|].
    apply H4. discriminate.
Qed.

(** X9: the scenario of a reconnect, for runs of any length.  With resync
    after reconnect enabled and the resync plugin injected, one or more
    failed probes followed by one or more successful probes trigger the
    resync exactly once in all; at the end the stored error is cleared and
    the plugin is connected. *)
Theorem reconnect_resyncs_once
  (w : World) (r : ResyncRef) (e : error) (es : list error) (n : nat)
  (Hre : reconnectResync (plugin w) = true)
  (Hres : Resync (deps (plugin w)) = Some r) :
  resyncCalls (exec (failed_probes (e :: es) ++ ok_probes (S n)) w)
  = S (resyncCalls w)
  /\ lastConnErr (plugin (exec (failed_probes (e :: es) ++ ok_probes (S n)) w)) = None
  /\ connected (plugin (exec (failed_probes (e :: es) ++ ok_probes (S n)) w)) = true.
Proof.
  rewrite exec_app.
  destruct (failed_probes_state es e w) as (H1 & H2 & H3 & H4 & _).
  remember (exec (failed_probes (e :: es)) w) as w1 eqn:Ew1. clear Ew1.
  change (exec (ok_probes (S n)) w1)
    with (exec (ok_probes n) (snd (probe None w1))).
  destruct (lastConnErr (plugin w1)) as [e1|] eqn:E1; [|congruence].
  rewrite (probe_reconnect_step w1 r e1); try congruence.
  cbn [snd].
  match goal with
  | |- context [exec (ok_probes n) ?w2] =>
      destruct (ok_probes_quiet n w2 eq_refl) as (G1 & G2 & _ & G4);
      rewrite G1, G2
  end.
  cbn. rewrite H3. repeat split.
  destruct n as [|n]; [reflexivity|]. apply G4. discriminate.
Qed.

Lemma reconnect_resyncs_once_witness :
  (reconnectResync (plugin (snd (Init env_up (new_world deps_full)))) = true
   /\ Resync (deps (plugin (snd (Init env_up (new_world deps_full))))) = Some resyncRef)
  /\ resyncCalls
       (exec (failed_probes [timeout_err; timeout_err; timeout_err] ++ ok_probes 2)
             (snd (Init env_up (new_world deps_full)))) = 1
  /\ lastConnErr
       (plugin
          (exec (failed_probes [timeout_err; timeout_err; timeout_err] ++ ok_probes 2)
                (snd (Init env_up (new_world deps_full))))) = None
  /\ connected
       (plugin
          (exec (failed_probes [timeout_err; timeout_err; timeout_err] ++ ok_probes 2)
                (snd (Init env_up (new_world deps_full))))) = true.
Proof.
  split; [split; reflexivity|].
  apply (reconnect_resyncs_once (snd (Init env_up (new_world deps_full)))
           resyncRef timeout_err [timeout_err; timeout_err] 1);
    reflexivity.
Defined.

(** X10: [Connected()] reflects the latest probe: after any run of
    operations that ends with a probe, the plugin is connected exactly
    when that probe's sentinel read succeeded, whatever came before. *)
Theorem Connected_reflects_last_probe
  (ops : list Op) (e : option error) (w : World) :
  fst (Connected (exec (ops ++ [OpProbe e]) w)) = Ret (is_nil e)
  /\ connected (plugin (exec (ops ++ [OpProbe e]) w)) = is_nil e.
Proof.
  rewrite exec_app. generalize (exec ops w) as w1. intro w1.
  unfold Connected; unfold_go; cbn.
  destruct e as [e|]; cbn; [split; reflexivity|].
  destruct (reconnectResync (plugin w1)), (lastConnErr (plugin w1)),
    (Resync (deps (plugin w1))); cbn; split; reflexivity.
Qed.

Lemma exec_same_setup (ops : list Op) (w : World) : same_setup w (exec ops w).
Proof.
  apply (exec_invariant (same_setup w)).
  - intros o w' H. pose proof (exec_op_same_setup o w') as H'.
    unfold same_setup in *.
    destruct H as (A1 & A2 & A3 & A4 & A5 & A6).
    destruct H' as (B1 & B2 & B3 & B4 & B5 & B6).
    repeat split; congruence.
  - unfold same_setup. repeat split.
Qed.

(** X11: what was set up by [Init] is not touched at run time: no run of
    probes, [DoResync], [Close], broker and watcher creation or getters
    changes the client, the proto wrapper, the resync flag or the injected
    dependencies, registers a probe or calls [NewClient]. *)
Theorem runtime_keeps_setup (ops : list Op) (w : World) :
  client (plugin (exec ops w)) = client (plugin w)
  /\ protoWrapper (plugin (exec ops w)) = protoWrapper (plugin w)
  /\ reconnectResync (plugin (exec ops w)) = reconnectResync (plugin w)
  /\ deps (plugin (exec ops w)) = deps (plugin w)
  /\ probes (exec ops w) = probes w
  /\ newClientCalls (exec ops w) = newClientCalls w.
Proof.
  destruct (exec_same_setup ops w) as (A1 & A2 & A3 & A4 & A5 & A6).
  repeat split; assumption.
Qed.

(** X12: the plugin's name is fixed: [GetPluginName] returns the injected
    name before [Init], after [Init] (whatever its outcome) and after any
    run of operations. *)
Theorem GetPluginName_fixed (env : Env) (w : World) (ops : list Op) :
  fst (GetPluginName w) = Ret (PluginName (deps (plugin w)))
  /\ fst (GetPluginName (snd (Init env w))) = fst (GetPluginName w)
  /\ fst (GetPluginName (exec ops (snd (Init env w)))) = fst (GetPluginName w).
Proof.
  destruct (exec_same_setup ops (snd (Init env w))) as (A1 & _).
  pose proof (Init_deps env w) as B.
  unfold GetPluginName; unfold_go; cbn [fst].
  repeat split; congruence.
Qed.

(** One probe never lowers the resync count and touches the stored error
    only as follows. *)
Lemma probe_no_Resync_step (a : option error) (w : World) :
  Resync (deps (plugin w)) = None ->
  resyncCalls (snd (probe a w)) = resyncCalls w
  /\ deps (plugin (snd (probe a w))) = deps (plugin w)
  /\ (lastConnErr (plugin w) <> None ->
      lastConnErr (plugin (snd (probe a w))) <> None).
Proof.
  intro Hnil. unfold probe; unfold_go.
  destruct a as [e|]; cbn; [repeat split; discriminate|].
  rewrite Hnil.
  destruct (reconnectResync (plugin w)),
    (lastConnErr (plugin w)) as [e|] eqn:El;
    cbn; repeat split; congruence.
Qed.

(** X13: without the resync plugin, no run of probes ever triggers a
    resync, and a stored probe error is never cleared again: once a probe
    has failed, [lastConnErr] stays non-nil through all later probes,
    successful or not. *)
Theorem probes_without_Resync (answers : list (option error)) :
  forall (w : World) (Hnil : Resync (deps (plugin w)) = None),
    resyncCalls (exec (probe_run answers) w) = resyncCalls w
    /\ (lastConnErr (plugin w) <> None ->
        lastConnErr (plugin (exec (probe_run answers) w)) <> None).
Proof.
  induction answers as [|a answers IH]; intros w Hnil.
  - cbn. split; [reflexivity | trivial].
  - change (exec (probe_run (a :: answers)) w)
      with (exec (probe_run answers) (snd (probe a w))).
    destruct (probe_no_Resync_step a w Hnil) as (H1 & H2 & H3).
    destruct (IH (snd (probe a w))) as (G1 & G2); [congruence|].
    split; [congruence | auto].
Qed.

Lemma probes_without_Resync_witness :
  Resync (deps (plugin (snd (Init env_up (new_world deps_no_resync))))) = None
  /\ resyncCalls
       (exec (probe_run [Some timeout_err; None; None])
             (snd (Init env_up (new_world deps_no_resync)))) = 0
  /\ lastConnErr
       (plugin (exec (probe_run [Some timeout_err; None; None])
                     (snd (Init env_up (new_world deps_no_resync)))))
     = Some timeout_err.
Proof.
  split; [reflexivity|].
  split.
  - apply (probes_without_Resync [Some timeout_err; None; None]
             (snd (Init env_up (new_world deps_no_resync)))).
    reflexivity.
  - reflexivity.
Defined.

Lemma probe_no_flag_step (a : option error) (w : World) :
  reconnectResync (plugin w) = false ->
  resyncCalls (snd (probe a w)) = resyncCalls w
  /\ Log (snd (probe a w)) = Log w
  /\ reconnectResync (plugin (snd (probe a w))) = false
  /\ (lastConnErr (plugin w) <> None ->
      lastConnErr (plugin (snd (probe a w))) <> None).
Proof.
  intro Hoff. unfold probe; unfold_go.
  destruct a as [e|]; cbn; [repeat split; try assumption; discriminate|].
  rewrite Hoff. cbn. repeat split; auto.
Qed.

(** X14: with resync after reconnect switched off, probes are silent and
    never resync, whether or not the resync plugin is injected: no run of
    probes writes to the log or triggers a resync, and a stored probe
    error survives every later successful probe. *)
Theorem probes_without_flag (answers : list (option error)) :
  forall (w : World) (Hoff : reconnectResync (plugin w) = false),
    resyncCalls (exec (probe_run answers) w) = resyncCalls w
    /\ Log (exec (probe_run answers) w) = Log w
    /\ (lastConnErr (plugin w) <> None ->
        lastConnErr (plugin (exec (probe_run answers) w)) <> None).
Proof.
  induction answers as [|a answers IH]; intros w Hoff.
  - cbn. repeat split. trivial.
  - change (exec (probe_run (a :: answers)) w)
      with (exec (probe_run answers) (snd (probe a w))).
    destruct (probe_no_flag_step a w Hoff) as (H1 & H2 & H3 & H4).
    destruct (IH (snd (probe a w)) H3) as (G1 & G2 & G3).
    repeat split; [congruence | congruence | auto].
Qed.

Lemma probes_without_flag_witness :
  reconnectResync (plugin (snd (Init env_up_noresync (new_world deps_full)))) = false
  /\ resyncCalls
       (exec (probe_run [Some timeout_err; None])
             (snd (Init env_up_noresync (new_world deps_full)))) = 0
  /\ Log (exec (probe_run [Some timeout_err; None])
               (snd (Init env_up_noresync (new_world deps_full)))) = []
  /\ lastConnErr
       (plugin (exec (probe_run [Some timeout_err; None])
                     (snd (Init env_up_noresync (new_world deps_full)))))
     = Some timeout_err.
Proof.
  split; [reflexivity|].
  destruct (probes_without_flag [Some timeout_err; None]
              (snd (Init env_up_noresync (new_world deps_full))) eq_refl)
    as (H1 & H2 & _).
  split; [exact H1|]. split; [exact H2 | reflexivity].
Defined.

(** X15: a resync requested through [Plugin.DoResync] does not count as
    the resync after reconnect: it changes no field of the plugin (the
    stored error stays), so with the flag set and an error stored the next
    successful probe triggers a second resync. *)
Theorem DoResync_then_probe (w : World) (r : ResyncRef)
  (Hre : reconnectResync (plugin w) = true)
  (Herr : lastConnErr (plugin w) <> None)
  (Hres : Resync (deps (plugin w)) = Some r) :
  fst (DoResync w) = Ret tt
  /\ plugin (snd (DoResync w)) = plugin w
  /\ resyncCalls (snd (DoResync w)) = S (resyncCalls w)
  /\ resyncCalls (exec [OpDoResync; OpProbe None] w) = S (S (resyncCalls w))
  /\ lastConnErr (plugin (exec [OpDoResync; OpProbe None] w)) = None.
Proof.
  destruct (lastConnErr (plugin w)) as [e|] eqn:El; [|congruence].
  unfold exec, exec_op. cbn [fold_left].
  unfold DoResync; unfold_go. rewrite Hres. cbn.
  repeat split.
  - unfold probe; unfold_go. cbn. rewrite Hre, Hres, El. reflexivity.
  - unfold probe; unfold_go. cbn. rewrite Hre, Hres, El. reflexivity.
Qed.

Lemma DoResync_then_probe_witness :
  (reconnectResync (plugin (degraded deps_full)) = true
   /\ lastConnErr (plugin (degraded deps_full)) <> None
   /\ Resync (deps (plugin (degraded deps_full))) = Some resyncRef)
  /\ fst (DoResync (degraded deps_full)) = Ret tt
  /\ plugin (snd (DoResync (degraded deps_full))) = plugin (degraded deps_full)
  /\ resyncCalls (snd (DoResync (degraded deps_full))) = 1
  /\ resyncCalls (exec [OpDoResync; OpProbe None] (degraded deps_full)) = 2
  /\ lastConnErr (plugin (exec [OpDoResync; OpProbe None] (degraded deps_full))) = None.
Proof.
  split; [split; [reflexivity | split; [cbv; discriminate | reflexivity]]|].
  apply (DoResync_then_probe (degraded deps_full) resyncRef);
    [reflexivity | cbv; discriminate | reflexivity].
Defined.

Lemma exec_op_cause (o : Op) (w : World) :
  (connected (plugin w) = false -> lastConnErr (plugin w) <> None) ->
  connected (plugin (exec_op o w)) = false ->
  lastConnErr (plugin (exec_op o w)) <> None.
Proof.
  destruct o; unfold exec_op; unfold_go; cbn; case_split;
    intros H H'; try discriminate; try congruence; auto.
Qed.

(** X16: a degraded plugin always knows why.  After an [Init] that
    returned nil and left the plugin enabled, and after any run of
    operations, [Connected()] being false implies that [lastConnErr]
    holds an error. *)
Theorem degraded_has_cause (env : Env) (w : World) (ops : list Op)
  (Hinit : fst (Init env w) = Ret None)
  (Hen : disabled (plugin (snd (Init env w))) = false)
  (Hdown : connected (plugin (exec ops (snd (Init env w)))) = false) :
  lastConnErr (plugin (exec ops (snd (Init env w)))) <> None.
Proof.
  revert Hdown.
  apply (exec_invariant
           (fun w' => connected (plugin w') = false ->
                      lastConnErr (plugin w') <> None)).
  - intros o w' H. apply exec_op_cause, H.
  - rewrite (Init_nil_enabled_connected env w Hinit Hen). discriminate.
Qed.

Lemma degraded_has_cause_witness :
  (fst (Init env_up (new_world deps_full)) = Ret None
   /\ disabled (plugin (snd (Init env_up (new_world deps_full)))) = false
   /\ connected
        (plugin (exec [OpProbe None; OpDoResync; OpProbe (Some timeout_err); OpClose]
                      (snd (Init env_up (new_world deps_full))))) = false)
  /\ lastConnErr
       (plugin (exec [OpProbe None; OpDoResync; OpProbe (Some timeout_err); OpClose]
                     (snd (Init env_up (new_world deps_full))))) <> None.
Proof.
  split; [split; [|split]; reflexivity|].
  apply (degraded_has_cause env_up (new_world deps_full)
           [OpProbe None; OpDoResync; OpProbe (Some timeout_err); OpClose]);
    reflexivity.
Defined.

(* ================================================================= *)
(** ** Further properties of the pure builders *)

(** X17: the client configuration built by [ConfigToClient] has an empty
    address only when both the configured address and the backend
    default's address are empty. *)
Theorem ConfigToClient_address_empty (env : Env) (cfg : Config) :
  api.Address (fst (ConfigToClient env cfg)) = ""
  <-> Address cfg = "" /\ api.Address (DefaultConfig env) = "".
Proof.
  unfold ConfigToClient.
  destruct (Address cfg =? "")%string eqn:E; cbn.
  - apply String.eqb_eq in E. tauto.
  - apply String.eqb_neq in E. tauto.
Qed.

(** X18: options built by successive calls of [WithTTL] are separate
    objects: the two pointers differ, and after the second call each
    object still holds the duration it was built with. *)
Theorem WithTTL_independent (d1 d2 : Duration) (h : Heap) :
  fst (WithTTL d1 h) <> fst (WithTTL d2 (snd (WithTTL d1 h)))
  /\ deref (snd (WithTTL d2 (snd (WithTTL d1 h)))) (fst (WithTTL d1 h))
     = Some {| TTL := d1 |}
  /\ deref (snd (WithTTL d2 (snd (WithTTL d1 h))))
           (fst (WithTTL d2 (snd (WithTTL d1 h))))
     = Some {| TTL := d2 |}.
Proof.
  unfold WithTTL, alloc; cbn.
  repeat split.
  - rewrite length_app. cbn. lia.
  - rewrite nth_error_app1 by (rewrite length_app; cbn; lia).
    rewrite nth_error_app2, Nat.sub_diag by lia. reflexivity.
  - rewrite nth_error_app2, Nat.sub_diag by lia. reflexivity.
Qed.

(* ================================================================= *)
(** ** Calling [Init] again *)

(** X19: [Init] is not idempotent.  A second successful [Init] of an
    enabled plugin with an injected status check calls [NewClient] again,
    registers the probe a second time under the same name, and replaces
    the notification channel by a new one while the first stays open. *)
Theorem Init_twice (env : Env) (w : World) (c : option Client) (s : StatusCheckRef)
  (Hok : cfgErr env = None)
  (Hfound : cfgFound env = true)
  (Hen : disabled (plugin w) = false)
  (Hnew : NewClient env (fst (ConfigToClient env (cfgValue env))) = (c, None))
  (Hsc : StatusCheck (deps (plugin w)) = Some s) :
  fst (Init env (snd (Init env w))) = Ret None
  /\ newClientCalls (snd (Init env (snd (Init env w)))) = S (S (newClientCalls w))
  /\ probes (snd (Init env (snd (Init env w))))
     = probes w ++ [PluginName (deps (plugin w)); PluginName (deps (plugin w))]
  /\ initNotifChan (plugin (snd (Init env w))) = Some (length (chans w))
  /\ initNotifChan (plugin (snd (Init env (snd (Init env w)))))
     = Some (S (length (chans w)))
  /\ nth_error (chans (snd (Init env (snd (Init env w))))) (length (chans w))
     = Some fresh_chan.
Proof.
  rewrite (Init_succeeds_steps env w c Hok Hfound Hen Hnew).
  rewrite Hsc. cbn [snd].
  match goal with
  | |- context [Init env ?w1] =>
      rewrite (Init_succeeds_steps env w1 c Hok Hfound Hen Hnew)
  end.
  cbn. rewrite Hsc. cbn.
  rewrite length_app, Nat.add_1_r, <- !app_assoc.
  repeat split.
  rewrite nth_error_app2, Nat.sub_diag by lia. reflexivity.
Qed.

Lemma Init_twice_witness :
  (cfgErr env_up = None /\ cfgFound env_up = true
   /\ disabled (plugin (new_world deps_full)) = false
   /\ NewClient env_up (fst (ConfigToClient env_up (cfgValue env_up)))
      = (Some {| clientConfig := api.set_Address "10.0.0.7:8500" defaults |}, None)
   /\ StatusCheck (deps (plugin (new_world deps_full))) = Some statusCheckRef)
  /\ fst (Init env_up (snd (Init env_up (new_world deps_full)))) = Ret None
  /\ newClientCalls (snd (Init env_up (snd (Init env_up (new_world deps_full))))) = 2
  /\ probes (snd (Init env_up (snd (Init env_up (new_world deps_full)))))
     = ["consul"; "consul"]
  /\ initNotifChan (plugin (snd (Init env_up (new_world deps_full)))) = Some 0
  /\ initNotifChan (plugin (snd (Init env_up (snd (Init env_up (new_world deps_full))))))
     = Some 1
  /\ nth_error (chans (snd (Init env_up (snd (Init env_up (new_world deps_full)))))) 0
     = Some fresh_chan.
Proof.
  split; [split; [|split; [|split; [|split]]]; reflexivity|].
  apply (Init_twice env_up (new_world deps_full)
           (Some {| clientConfig := api.set_Address "10.0.0.7:8500" defaults |})
           statusCheckRef); reflexivity.
Defined.
